(** * The Inference Invoker script ([src/agent/client.py])

    A shallow embedding of the one-shot script: it assigns a bearer token
    into [os.environ], builds a [boto3] client, sends one [converse] request
    with a fixed model identifier and a fixed message list, and prints
    [response['output']['message']['content'][0]['text']].

    The vendor SDK and the remote service are external collaborators: they
    are a record of functions the development is parametric in. Everything
    the script itself does (the environment assignment, the construction of
    the request, the subscript chain, the call to [print]) is defined here
    and runs by evaluation. The two [import] statements at the top of the
    file are taken to succeed: a run starts at the assignment to
    [os.environ]. Standard output is the byte stream of a process with the
    default settings: UTF-8 with strict error handling, and the default limit
    of 4300 digits on the conversion of an [int] to text. *)

From Stdlib Require Import ZArith String Ascii List Bool Lia.
From stdpp Require Import base option list strings gmap fin_maps pretty.

Set Warnings "-register-all".
Open Scope string_scope.
Open Scope Z_scope.
Open Scope list_scope.

(** ** Python values *)

(** The values a response or a request payload is built from: the JSON-shaped
    objects the SDK hands over, dictionaries keyed by [str]. A [str] is held
    as the bytes of its UTF-8 form; a lone surrogate, which a [str] can hold
    and UTF-8 proper cannot, as the three bytes that form would give it
    (237, then 160 to 191, then 128 to 191). *)
Inductive PyVal : Type :=
  | VNone
  | VBool (b : bool)
  | VInt (n : Z)
  | VStr (s : string)
  | VList (items : list PyVal)
  | VDict (fields : gmap string PyVal).

(** What is written between the square brackets of [obj[...]]: the script
    only uses string literals and the integer literal [0]. *)
Inductive Subscript : Type :=
  | SKey (k : string)
  | SIdx (i : Z).

(** The exceptions a run can end in. [KeyError], [IndexError] and [TypeError]
    come from the subscript chain; [ValueError] from [str] of an [int] with
    too many digits; [UnicodeEncodeError] from writing a text that standard
    output cannot encode; [SdkError] is whatever the SDK raises (no
    credentials, transport failure, service error, ...). *)
Inductive PyExc : Type :=
  | KeyError (k : Subscript)
  | IndexError
  | TypeError
  | ValueError
  | UnicodeEncodeError
  | SdkError (name : string).

Definition Result (A : Type) : Type := PyExc + A.

(** Python's index normalisation for sequences: a negative index counts from
    the end, anything outside [0, len) is out of range. *)
Definition norm_index (i : Z) (len : nat) : option nat :=
  let j := if i <? 0 then i + Z.of_nat len else i in
  if (0 <=? j) && (j <? Z.of_nat len) then Some (Z.to_nat j) else None.

(** [obj[sub]] for the built-in types. *)
Definition getitem (obj : PyVal) (sub : Subscript) : Result PyVal :=
  match obj, sub with
  | VDict fields, SKey k =>
      match fields !! k with
      | Some v => inr v
      | None => inl (KeyError sub)
      end
  | VDict _, SIdx _ => inl (KeyError sub)
  | VList items, SIdx i =>
      match norm_index i (length items) with
      | Some n =>
          match items !! n with
          | Some v => inr v
          | None => inl IndexError
          end
      | None => inl IndexError
      end
  | VList _, SKey _ => inl TypeError
  | VStr s, SIdx i =>
      match norm_index i (String.length s) with
      | Some n =>
          match String.get n s with
          | Some c => inr (VStr (String c EmptyString))
          | None => inl IndexError
          end
      | None => inl IndexError
      end
  | VStr _, SKey _ => inl TypeError
  | (VNone | VBool _ | VInt _), _ => inl TypeError
  end.

(** ** The process and its collaborators *)

(** The object [boto3.client(service_name=..., region_name=...)] returns: a
    client bound to a service and a region. *)
Record Client : Type := mkClient {
  service_name : string;
  region_name : string
}.

(** The keyword arguments of [client.converse(modelId=..., messages=...)]. *)
Record ConverseArgs : Type := mkConverseArgs {
  modelId : string;
  messages : PyVal
}.

(** What the process does, in the order it does it. A call that raises
    leaves its [ConverseCall] without a [ConverseReturn]; [Construct] is the
    evaluation of a literal and its binding to a name; [StdoutWrite] is a
    text that went out on standard output. *)
Inductive Event : Type :=
  | EnvAssign (name value : string)
  | ClientCreate (service region : string)
  | Construct (name : string) (value : PyVal)
  | ConverseCall (args : ConverseArgs)
  | ConverseReturn (response : PyVal)
  | StdoutWrite (text : string).

Record World : Type := mkWorld {
  environ : gmap string string;
  stdout : string;
  trace : list Event
}.

(** The parts that are not in this repository: the SDK with the service
    behind it, and the interpreter's rendering of containers. Each may look
    at the whole world, so a reply can depend on the environment and on
    everything that happened before (in particular on how many requests were
    already made).
    - [client_fails] is the exception [boto3.client] raises, if any;
    - [converse_reply] is what [client.converse] raises or returns;
    - [container_repr] is [str] of a list or a dictionary, a text or an
      exception: it depends on the insertion order of the dictionary, which a
      finite map does not keep. *)
Record Host : Type := mkHost {
  client_fails : World -> string -> string -> option PyExc;
  converse_reply : World -> Client -> ConverseArgs -> Result PyVal;
  container_repr : PyVal -> Result string
}.

(** Computations of the script: they read and change the world, and return a
    value or raise. What was done before a raise stays done. *)
Definition M (A : Type) : Type := World -> Result A * World.

Definition ret {A} (a : A) : M A := fun w => (inr a, w).

Definition raise {A} (e : PyExc) : M A := fun w => (inl e, w).

Definition bind {A B} (m : M A) (k : A -> M B) : M B :=
  fun w =>
    match m w with
    | (inr a, w') => k a w'
    | (inl e, w') => (inl e, w')
    end.

(** A pure evaluation that may raise, as a computation. *)
Definition lift {A} (r : Result A) : M A :=
  match r with
  | inl e => raise e
  | inr a => ret a
  end.

Declare Scope script_scope.
Delimit Scope script_scope with script.
Notation "'let!' x ':=' m 'in' k" := (bind m (fun x => k))
  (at level 10, x name, m at level 100, k at level 200) : script_scope.
Notation "m ;; k" := (bind m (fun _ => k))
  (at level 100, k at level 200, right associativity) : script_scope.
Open Scope script_scope.

Definition log (ev : Event) (w : World) : World :=
  mkWorld (environ w) (stdout w) (trace w ++ [ev]).

(** [os.environ[name] = value] *)
Definition os_environ_setitem (name value : string) : M unit :=
  fun w =>
    (inr tt, log (EnvAssign name value)
               (mkWorld (<[name := value]> (environ w)) (stdout w) (trace w))).

(** [boto3.client(service_name=service, region_name=region)] *)
Definition boto3_client (h : Host) (service region : string) : M Client :=
  fun w =>
    let w' := log (ClientCreate service region) w in
    match client_fails h w' service region with
    | Some e => (inl e, w')
    | None => (inr (mkClient service region), w')
    end.

(** [client.converse(modelId=..., messages=...)] *)
Definition converse (h : Host) (client : Client) (args : ConverseArgs) : M PyVal :=
  fun w =>
    let w' := log (ConverseCall args) w in
    match converse_reply h w' client args with
    | inl e => (inl e, w')
    | inr response => (inr response, log (ConverseReturn response) w')
    end.

(** [name = literal]: the script builds a value and binds it to a name
    ([as_value] says which Python value it is). *)
Definition construct {A} (name : string) (as_value : A -> PyVal) (a : A) : M A :=
  fun w => (inr a, log (Construct name (as_value a)) w).

(** Whether a text holds a surrogate: a byte 237 followed by a byte from 160
    to 191. The strict UTF-8 encoder of standard output refuses such a text. *)
Fixpoint has_surrogate (s : string) : bool :=
  match s with
  | EmptyString => false
  | String c s' =>
      match s' with
      | String d _ =>
          (N_of_ascii c =? 237)%N && (160 <=? N_of_ascii d)%N
          && (N_of_ascii d <=? 191)%N
      | EmptyString => false
      end
      || has_surrogate s'
  end.

(** [sys.stdout.write(text)]: the text is encoded first, and a text that
    cannot be encoded raises before anything is written. *)
Definition sys_stdout_write (text : string) : M unit :=
  fun w =>
    if has_surrogate text then (inl UnicodeEncodeError, w)
    else (inr tt, log (StdoutWrite text)
                    (mkWorld (environ w) (stdout w +:+ text) (trace w))).

(** The limit of [sys.get_int_max_str_digits()], and whether the decimal
    form of an [int] has more digits than that (the sign does not count). *)
Definition INT_MAX_STR_DIGITS : Z := 4300.

Definition int_str_too_long (n : Z) : bool := 10 ^ INT_MAX_STR_DIGITS <=? Z.abs n.

(** [str(obj)]: a text, or the exception it raises. *)
Definition builtin_str (h : Host) (obj : PyVal) : Result string :=
  match obj with
  | VNone => inr "None"
  | VBool true => inr "True"
  | VBool false => inr "False"
  | VInt n => if int_str_too_long n then inl ValueError else inr (pretty n)
  | VStr s => inr s
  | VList _ | VDict _ => container_repr h obj
  end.

(** The text [str(obj)] returns, where it returns one (empty where it
    raises). *)
Definition py_str (h : Host) (obj : PyVal) : string :=
  match builtin_str h obj with
  | inr text => text
  | inl _ => EmptyString
  end.

(** The line feed character, as a one-character text. *)
Definition LF : string := String "010"%char EmptyString.

(** [print(obj)]: [str(obj)] is taken, then written, then the line end. *)
Definition print (h : Host) (obj : PyVal) : M unit :=
  let! text := lift (builtin_str h obj) in
  sys_stdout_write text ;;
  sys_stdout_write LF.

(** ** The script *)

Definition TOKEN_VAR : string := "AWS_BEARER_TOKEN_BEDROCK".
Definition TOKEN_VALUE : string := "${api-key}".

Definition model_id : string := "us.anthropic.claude-3-5-haiku-20241022-v1:0".

Definition greeting : string := "Hello! Can you tell me about Amazon Bedrock?".

(** [[{"role": "user", "content": [{"text": "Hello! ..."}]}]] *)
Definition messages_literal : PyVal :=
  VList [VDict (<["role" := VStr "user"]>
               (<["content" := VList [VDict {["text" := VStr greeting]}]]> ∅))].

Definition request : ConverseArgs := mkConverseArgs model_id messages_literal.

(** [response['output']['message']['content'][0]['text']], evaluated from
    left to right; the first subscript that fails raises. *)
Definition extract_text (response : PyVal) : Result PyVal :=
  match getitem response (SKey "output") with
  | inl e => inl e
  | inr output =>
  match getitem output (SKey "message") with
  | inl e => inl e
  | inr message =>
  match getitem message (SKey "content") with
  | inl e => inl e
  | inr content =>
  match getitem content (SIdx 0) with
  | inl e => inl e
  | inr block => getitem block (SKey "text")
  end end end end.

(** The module body, statement by statement. *)
Definition script (h : Host) : M unit :=
  os_environ_setitem TOKEN_VAR TOKEN_VALUE ;;
  let! client := boto3_client h "bedrock-runtime" "us-east-1" in
  let! the_model_id := construct "model_id" VStr model_id in
  let! the_messages := construct "messages" id messages_literal in
  let! response := converse h client (mkConverseArgs the_model_id the_messages) in
  let! text := lift (extract_text response) in
  print h text.

(** The exit status of the interpreter: 0 when the module body ran to its
    end, 1 when an exception was left unhandled. *)
Definition exit_code (r : Result unit) : Z :=
  match r with
  | inr _ => 0
  | inl _ => 1
  end.

(** The body wrapped as a function and called twice in a row, [main(); main()]:
    an exception of the first call is not caught, so it ends both. *)
Definition script_twice (h : Host) : M unit :=
  script h ;; script h.

(** A process that has not done anything yet. *)
Definition fresh (env : gmap string string) : World := mkWorld env EmptyString [].

(** ** Vocabulary of the statements *)

(** The client the script builds. *)
Definition bedrock_client : Client := mkClient "bedrock-runtime" "us-east-1".

(** The world in which the SDK is asked for a client, and the world in which
    it is asked for a reply, for a run that starts in [w]. *)
Definition at_client (w : World) : World :=
  log (ClientCreate "bedrock-runtime" "us-east-1")
      (snd (os_environ_setitem TOKEN_VAR TOKEN_VALUE w)).

Definition at_call (w : World) : World :=
  log (ConverseCall request)
      (log (Construct "messages" messages_literal)
           (log (Construct "model_id" (VStr model_id)) (at_client w))).

(** The exception [print(obj)] raises, if any: that of [str(obj)], or that
    of the encoder of standard output. *)
Definition print_raises (h : Host) (obj : PyVal) : option PyExc :=
  match builtin_str h obj with
  | inl e => Some e
  | inr text => if has_surrogate text then Some UnicodeEncodeError else None
  end.

(** The world after [print(text)]. *)
Definition printed (h : Host) (text : PyVal) (w : World) : World :=
  snd (print h text w).

(** The events a run from [w] to [w'] added. *)
Definition new_events (w w' : World) : list Event :=
  drop (length (trace w)) (trace w').

Definition requests_of (t : list Event) : list ConverseArgs :=
  omap (fun ev => match ev with ConverseCall args => Some args | _ => None end) t.

Definition replies_of (t : list Event) : list PyVal :=
  omap (fun ev => match ev with ConverseReturn r => Some r | _ => None end) t.

Definition writes_of (t : list Event) : list string :=
  omap (fun ev => match ev with StdoutWrite s => Some s | _ => None end) t.

Definition constructions_of (t : list Event) : list (string * PyVal) :=
  omap (fun ev => match ev with Construct name v => Some (name, v) | _ => None end) t.

Definition env_assigns_of (t : list Event) : list (string * string) :=
  omap (fun ev => match ev with EnvAssign k v => Some (k, v) | _ => None end) t.

Definition is_token_assign (ev : Event) : bool :=
  match ev with
  | EnvAssign k v => String.eqb k TOKEN_VAR && String.eqb v TOKEN_VALUE
  | _ => false
  end.

Definition is_construct (ev : Event) : bool :=
  match ev with Construct _ _ => true | _ => false end.

Definition is_call (ev : Event) : bool :=
  match ev with ConverseCall _ => true | _ => false end.

Definition is_return (ev : Event) : bool :=
  match ev with ConverseReturn _ => true | _ => false end.

Definition is_write (ev : Event) : bool :=
  match ev with StdoutWrite _ => true | _ => false end.

(** Every [q] event of the trace comes after some [p] event of it
    ([seen] says whether a [p] event came before the trace). *)
Fixpoint preceded (p q : Event -> bool) (seen : bool) (t : list Event) : bool :=
  match t with
  | [] => true
  | ev :: t' => (negb (q ev) || seen) && preceded p q (seen || p ev) t'
  end.

(** The path of the specification, [output.message.content[0].text]: an
    object with a field [output], an object with a field [message], an
    object with a field [content], a list that is not empty, whose first
    element is an object with a field [text]. *)
Definition response_path (response : PyVal) : option PyVal :=
  match response with
  | VDict r =>
      match r !! "output" with
      | Some (VDict o) =>
          match o !! "message" with
          | Some (VDict m) =>
              match m !! "content" with
              | Some (VList (VDict block :: _)) => block !! "text"
              | _ => None
              end
          | _ => None
          end
      | _ => None
      end
  | _ => None
  end.

(** The number of line feeds of a text: the number of lines of an output
    that ends with one. *)
Fixpoint count_lf (s : string) : nat :=
  match s with
  | EmptyString => 0%nat
  | String c s' => ((if Ascii.eqb c "010"%char then 1 else 0) + count_lf s')%nat
  end.

(** ** Stand-ins for the collaborators *)

Definition text_response (text : PyVal) : PyVal :=
  VDict {["output" :=
    VDict {["message" :=
      VDict {["content" := VList [VDict {["text" := text]}]]}]}]}.

(** A service that answers every request with the same response. *)
Definition mock_host (response : PyVal) : Host :=
  mkHost (fun _ _ _ => None) (fun _ _ _ => inr response) (fun _ => inr "<container>").

(** A service that answers the n-th request of the process with the n-th
    response of a list, and raises when the list is used up. *)
Definition scripted_host (responses : list PyVal) : Host :=
  mkHost (fun _ _ _ => None)
         (fun w _ _ =>
            match responses !! pred (length (requests_of (trace w))) with
            | Some r => inr r
            | None => inl (SdkError "EndpointConnectionError")
            end)
         (fun _ => inr "<container>").

(** A machine on which no client can be built. *)
Definition offline_host : Host :=
  mkHost (fun _ _ _ => Some (SdkError "NoRegionError"))
         (fun _ _ _ => inl (SdkError "EndpointConnectionError"))
         (fun _ => inr "<container>").

Definition bedrock_response : PyVal :=
  text_response (VStr "Bedrock is a managed service.").

Definition two_line_response : PyVal :=
  text_response (VStr ("Amazon Bedrock is a managed service." +:+ LF +:+ "It hosts foundation models.")).

(** The ways the specification lists for the path to be absent: one of the
    keys [output], [message], [content], [text] is missing, or the content
    list is empty. *)
Inductive path_missing : PyVal -> Prop :=
  | no_output (r : gmap string PyVal) :
      r !! "output" = None -> path_missing (VDict r)
  | no_message (r o : gmap string PyVal) :
      r !! "output" = Some (VDict o) -> o !! "message" = None ->
      path_missing (VDict r)
  | no_content (r o m : gmap string PyVal) :
      r !! "output" = Some (VDict o) -> o !! "message" = Some (VDict m) ->
      m !! "content" = None -> path_missing (VDict r)
  | empty_content (r o m : gmap string PyVal) :
      r !! "output" = Some (VDict o) -> o !! "message" = Some (VDict m) ->
      m !! "content" = Some (VList []) -> path_missing (VDict r)
  | no_text (r o m b : gmap string PyVal) (rest : list PyVal) :
      r !! "output" = Some (VDict o) -> o !! "message" = Some (VDict m) ->
      m !! "content" = Some (VList (VDict b :: rest)) -> b !! "text" = None ->
      path_missing (VDict r).

(** A response with everything the service sends along: a role, a second
    content block, a stop reason and the token counts. *)
Definition full_message : gmap string PyVal :=
  <["role" := VStr "assistant"]>
  (<["content" := VList [VDict {["text" := VStr "Bedrock is a managed service."]};
                         VDict {["text" := VStr "Anything else?"]}]]> ∅).

Definition full_response : gmap string PyVal :=
  <["output" := VDict {["message" := VDict full_message]}]>
  (<["stopReason" := VStr "end_turn"]>
  (<["usage" := VDict (<["inputTokens" := VInt 19]> (<["outputTokens" := VInt 7]> ∅))]> ∅)).

(** A response whose only content block has no text. *)
Definition textless_response : PyVal :=
  VDict {["output" :=
    VDict {["message" :=
      VDict {["content" := VList [VDict {["toolUse" := VDict ∅]}]]}]}]}.

(** The clients a trace asks the SDK for, as (service, region). *)
Definition clients_of (t : list Event) : list (string * string) :=
  omap (fun ev => match ev with ClientCreate s r => Some (s, r) | _ => None end) t.

(** The texts of a list of writes, one after the other. *)
Definition joined (texts : list string) : string :=
  foldr String.append EmptyString texts.

(** A response whose text is a lone surrogate, U+D83D: the first half of an
    emoji, cut off. *)
Definition surrogate_text : string :=
  String "237"%char (String "160"%char (String "189"%char EmptyString)).



(** A response whose content is a text instead of a list of blocks. *)
Definition flat_response : PyVal :=
  VDict {["output" := VDict {["message" := VDict {["content" := VStr "abc"]}]}]}.

(** ** The subscript chain and the path of the specification *)

Section Extraction.

Lemma norm_index_0 (len : nat) :
  norm_index 0 len = match len with O => None | S _ => Some O end.
Proof. destruct len; reflexivity. Qed.

Lemma getitem_key_inv (obj : PyVal) (k : string) (v : PyVal) :
  getitem obj (SKey k) = inr v ->
  exists fields, obj = VDict fields /\ fields !! k = Some v.
Proof.
  destruct obj as [ | b | n | s | items | fields]; simpl; try discriminate.
  destruct (fields !! k) as [v' | ] eqn:Hk; intros H; inversion H; subst.
  exists fields. split; [reflexivity | assumption].
Qed.

Lemma getitem_key_dict (fields : gmap string PyVal) (k : string) (v : PyVal) :
  fields !! k = Some v -> getitem (VDict fields) (SKey k) = inr v.
Proof. intros H. simpl. rewrite H. reflexivity. Qed.

Lemma getitem_first_inv (obj v : PyVal) :
  getitem obj (SIdx 0) = inr v ->
  (exists rest, obj = VList (v :: rest)) \/
  (exists c s, obj = VStr (String c s) /\ v = VStr (String c EmptyString)).
Proof.
  destruct obj as [ | b | n | s | items | fields]; simpl; try discriminate.
  - rewrite norm_index_0. destruct s as [ | c s]; simpl; [discriminate | ].
    intros H. inversion H. right. exists c, s. split; reflexivity.
  - rewrite norm_index_0. destruct items as [ | x rest]; simpl; [discriminate | ].
    intros H. inversion H. left. exists rest. reflexivity.
Qed.

(** The subscript chain of the script finds a value exactly when the
    response has the path of the specification, and it finds that value. *)
Lemma extract_text_path (response text : PyVal) :
  extract_text response = inr text <-> response_path response = Some text.
Proof.
  unfold extract_text, response_path. split.
  - destruct (getitem response (SKey "output")) as [e | output] eqn:H1; [discriminate | ].
    destruct (getitem output (SKey "message")) as [e | message] eqn:H2; [discriminate | ].
    destruct (getitem message (SKey "content")) as [e | content] eqn:H3; [discriminate | ].
    destruct (getitem content (SIdx 0)) as [e | block] eqn:H4; [discriminate | ].
    intros H5.
    apply getitem_key_inv in H1 as (r & -> & Hr).
    apply getitem_key_inv in H2 as (o & -> & Ho).
    apply getitem_key_inv in H3 as (m & -> & Hm).
    apply getitem_key_inv in H5 as (b & -> & Hb).
    apply getitem_first_inv in H4 as [(rest & ->) | (c & s & _ & Hbad)];
      [ | discriminate].
    rewrite Hr, Ho, Hm. exact Hb.
  - destruct response as [ | ? | ? | ? | ? | r]; try discriminate.
    destruct (r !! "output") as [[ | ? | ? | ? | ? | o] | ] eqn:Hr; try discriminate.
    destruct (o !! "message") as [[ | ? | ? | ? | ? | m] | ] eqn:Ho; try discriminate.
    destruct (m !! "content") as [[ | ? | ? | ? | [ | [ | ? | ? | ? | ? | b] rest] | ?] | ] eqn:Hm;
      try discriminate.
    intros Hb.
    rewrite (getitem_key_dict _ _ _ Hr), (getitem_key_dict _ _ _ Ho),
      (getitem_key_dict _ _ _ Hm).
    simpl. rewrite Hb. reflexivity.
Qed.

Lemma extract_text_no_path (response : PyVal) :
  response_path response = None -> exists e, extract_text response = inl e.
Proof.
  intros Hnone. destruct (extract_text response) as [e | text] eqn:Hx.
  - exists e. reflexivity.
  - apply extract_text_path in Hx. congruence.
Qed.

(** The exceptions of the chain are those of a failed subscript. *)
Lemma getitem_raises (obj : PyVal) (sub : Subscript) (e : PyExc) :
  getitem obj sub = inl e -> e = KeyError sub \/ e = IndexError \/ e = TypeError.
Proof.
  unfold getitem. intros H.
  repeat match type of H with
         | context [match ?x with _ => _ end] => destruct x
         end; inversion H; auto.
Qed.

Lemma extract_text_raises (response : PyVal) (e : PyExc) :
  extract_text response = inl e ->
  (exists sub, e = KeyError sub) \/ e = IndexError \/ e = TypeError.
Proof.
  unfold extract_text. intros H.
  repeat match type of H with
         | context [match getitem ?o ?k with _ => _ end] =>
             let Hg := fresh "Hg" in destruct (getitem o k) eqn:Hg
         end;
    try (inversion H; subst);
    match goal with
    | Hg : getitem _ _ = inl _ |- _ =>
        apply getitem_raises in Hg as [-> | [-> | ->]]; eauto
    end.
Qed.

End Extraction.

(** ** One run of the script *)

Section Run.

Variable h : Host.

Lemma trace_log (ev : Event) (w : World) : trace (log ev w) = trace w ++ [ev].
Proof. reflexivity. Qed.

Lemma new_events_app (w w' : World) (evs : list Event) :
  trace w' = trace w ++ evs -> new_events w w' = evs.
Proof. intros H. unfold new_events. rewrite H. apply drop_app_length. Qed.

(** [print] either raises, leaving the world as it is, or writes the text
    and the line end. *)
Lemma print_cases (obj : PyVal) (w : World) :
  print h obj w =
  match print_raises h obj with
  | Some e => (inl e, w)
  | None => (inr tt, printed h obj w)
  end.
Proof.
  unfold printed, print, print_raises, py_str, bind, lift.
  destruct (builtin_str h obj) as [e | text]; [reflexivity | ].
  unfold ret, sys_stdout_write.
  destruct (has_surrogate text); reflexivity.
Qed.

Lemma print_raises_str (obj : PyVal) :
  print_raises h obj = None ->
  builtin_str h obj = inr (py_str h obj) /\ has_surrogate (py_str h obj) = false.
Proof.
  unfold print_raises, py_str.
  destruct (builtin_str h obj) as [e | text]; [discriminate | ].
  destruct (has_surrogate text); [discriminate | ]. split; reflexivity.
Qed.

(** The five ways a run can go: no client, no reply, no text, a text that
    cannot be printed, or the text printed. *)
Lemma script_cases (w : World) :
  script h w =
  match client_fails h (at_client w) "bedrock-runtime" "us-east-1" with
  | Some e => (inl e, at_client w)
  | None =>
      match converse_reply h (at_call w) bedrock_client request with
      | inl e => (inl e, at_call w)
      | inr response =>
          match extract_text response with
          | inl e => (inl e, log (ConverseReturn response) (at_call w))
          | inr text =>
              match print_raises h text with
              | Some e => (inl e, log (ConverseReturn response) (at_call w))
              | None =>
                  (inr tt, printed h text (log (ConverseReturn response) (at_call w)))
              end
          end
      end
  end.
Proof.
  unfold script, bind, boto3_client, construct, converse.
  change (log (ClientCreate "bedrock-runtime" "us-east-1")
            (snd (os_environ_setitem TOKEN_VAR TOKEN_VALUE w))) with (at_client w).
  simpl.
  change (log (ClientCreate "bedrock-runtime" "us-east-1") _) with (at_client w).
  destruct (client_fails h (at_client w) _ _) as [e | ]; [reflexivity | ].
  change (log (ConverseCall _) _) with (at_call w).
  change (mkClient "bedrock-runtime" "us-east-1") with bedrock_client.
  change (mkConverseArgs model_id messages_literal) with request.
  destruct (converse_reply h (at_call w) bedrock_client request) as [e | response];
    [reflexivity | ].
  unfold lift. destruct (extract_text response) as [e | text]; [reflexivity | ].
  unfold ret. rewrite print_cases.
  destruct (print_raises h text); reflexivity.
Qed.

Lemma str_app_cons (c : ascii) (s t : string) :
  String c s +:+ t = String c (s +:+ t).
Proof. reflexivity. Qed.

Lemma str_app_assoc (s t u : string) : (s +:+ t) +:+ u = s +:+ t +:+ u.
Proof.
  induction s as [ | c s IH]; [reflexivity | ].
  rewrite !str_app_cons, IH. reflexivity.
Qed.

Lemma count_lf_app (s t : string) :
  count_lf (s +:+ t) = (count_lf s + count_lf t)%nat.
Proof.
  induction s as [ | c s IH]; [reflexivity | ].
  rewrite str_app_cons. simpl. rewrite IH. lia.
Qed.

Lemma environ_at_client (w : World) :
  environ (at_client w) = <[TOKEN_VAR := TOKEN_VALUE]> (environ w).
Proof. reflexivity. Qed.

Lemma environ_at_call (w : World) :
  environ (at_call w) = <[TOKEN_VAR := TOKEN_VALUE]> (environ w).
Proof. reflexivity. Qed.

Lemma environ_printed (text : PyVal) (w : World) :
  environ (printed h text w) = environ w.
Proof.
  unfold printed. rewrite print_cases.
  destruct (print_raises h text); [reflexivity | ].
  unfold printed, print, bind, lift.
  destruct (builtin_str h text) as [e | s]; [reflexivity | ].
  unfold ret, sys_stdout_write. destruct (has_surrogate s); reflexivity.
Qed.

Lemma stdout_printed (text : PyVal) (w : World) :
  print_raises h text = None ->
  stdout (printed h text w) = stdout w +:+ py_str h text +:+ LF.
Proof.
  intros Hp. destruct (print_raises_str text Hp) as [Hstr Hsur].
  unfold printed, print, bind, lift. rewrite Hstr.
  unfold ret, sys_stdout_write. rewrite Hsur. simpl. apply str_app_assoc.
Qed.

Lemma trace_at_client (w : World) :
  trace (at_client w) =
  trace w ++ [EnvAssign TOKEN_VAR TOKEN_VALUE;
              ClientCreate "bedrock-runtime" "us-east-1"].
Proof. unfold at_client. simpl. rewrite <- app_assoc. reflexivity. Qed.

Lemma trace_at_call (w : World) :
  trace (at_call w) =
  trace w ++ [EnvAssign TOKEN_VAR TOKEN_VALUE;
              ClientCreate "bedrock-runtime" "us-east-1";
              Construct "model_id" (VStr model_id);
              Construct "messages" messages_literal;
              ConverseCall request].
Proof.
  unfold at_call. rewrite !trace_log, trace_at_client, <- !app_assoc. reflexivity.
Qed.

Lemma trace_printed (text : PyVal) (w : World) :
  print_raises h text = None ->
  trace (printed h text w) =
  trace w ++ [StdoutWrite (py_str h text); StdoutWrite LF].
Proof.
  intros Hp. destruct (print_raises_str text Hp) as [Hstr Hsur].
  unfold printed, print, bind, lift. rewrite Hstr.
  unfold ret, sys_stdout_write. rewrite Hsur. simpl.
  rewrite <- app_assoc. reflexivity.
Qed.

(** The events of a run, in each of its five cases. *)
Lemma script_events (w : World) :
  new_events w (snd (script h w)) =
  [EnvAssign TOKEN_VAR TOKEN_VALUE; ClientCreate "bedrock-runtime" "us-east-1"] ++
  match client_fails h (at_client w) "bedrock-runtime" "us-east-1" with
  | Some _ => []
  | None =>
      Construct "model_id" (VStr model_id) ::
      Construct "messages" messages_literal ::
      ConverseCall request ::
      match converse_reply h (at_call w) bedrock_client request with
      | inl _ => []
      | inr response =>
          ConverseReturn response ::
          match extract_text response with
          | inl _ => []
          | inr text =>
              match print_raises h text with
              | Some _ => []
              | None => [StdoutWrite (py_str h text); StdoutWrite LF]
              end
          end
      end
  end.
Proof.
  apply new_events_app. rewrite script_cases.
  destruct (client_fails h (at_client w) _ _) as [e | ]; simpl snd.
  { rewrite trace_at_client. reflexivity. }
  destruct (converse_reply h (at_call w) bedrock_client request) as [e | response];
    simpl snd.
  { rewrite trace_at_call. reflexivity. }
  destruct (extract_text response) as [e | text]; simpl snd.
  { rewrite trace_log, trace_at_call, <- app_assoc. reflexivity. }
  destruct (print_raises h text) as [e | ] eqn:Hp; simpl snd.
  - rewrite trace_log, trace_at_call, <- app_assoc. reflexivity.
  - rewrite (trace_printed _ _ Hp), trace_log, trace_at_call, <- !app_assoc.
    reflexivity.
Qed.

Lemma script_environ (w : World) :
  environ (snd (script h w)) = <[TOKEN_VAR := TOKEN_VALUE]> (environ w).
Proof.
  rewrite script_cases.
  destruct (client_fails h (at_client w) _ _) as [e | ]; [reflexivity | ].
  destruct (converse_reply h (at_call w) bedrock_client request) as [e | response];
    [reflexivity | ].
  destruct (extract_text response) as [e | text]; [reflexivity | ].
  destruct (print_raises h text); [reflexivity | ].
  simpl snd. rewrite environ_printed. reflexivity.
Qed.

(** A run that finds a text it can print prints it. *)
Lemma script_success (w : World) (response text : PyVal) :
  client_fails h (at_client w) "bedrock-runtime" "us-east-1" = None ->
  converse_reply h (at_call w) bedrock_client request = inr response ->
  extract_text response = inr text ->
  print_raises h text = None ->
  script h w = (inr tt, printed h text (log (ConverseReturn response) (at_call w))).
Proof. intros Hc Hr Hx Hp. rewrite script_cases, Hc, Hr, Hx, Hp. reflexivity. Qed.

(** A run ends normally only if it found a text it could print. *)
Lemma script_success_inv (w : World) :
  fst (script h w) = inr tt ->
  exists response text,
    client_fails h (at_client w) "bedrock-runtime" "us-east-1" = None /\
    converse_reply h (at_call w) bedrock_client request = inr response /\
    extract_text response = inr text /\
    print_raises h text = None.
Proof.
  rewrite script_cases.
  destruct (client_fails h (at_client w) _ _) as [e | ] eqn:Hc; [discriminate | ].
  destruct (converse_reply h (at_call w) bedrock_client request)
    as [e | response] eqn:Hr; [discriminate | ].
  destruct (extract_text response) as [e | text] eqn:Hx; [discriminate | ].
  destruct (print_raises h text) as [e | ] eqn:Hp; [discriminate | ].
  intros _. exists response, text. repeat split; assumption || reflexivity.
Qed.

End Run.

(** ** Runs one after the other *)

Section Sequence.

Variable h : Host.

(** A run only adds to the trace. *)
Lemma script_trace (w : World) :
  trace (snd (script h w)) = trace w ++ new_events w (snd (script h w)).
Proof.
  assert (Hext : exists evs, trace (snd (script h w)) = trace w ++ evs).
  { rewrite script_cases.
    destruct (client_fails h (at_client w) _ _) as [e | ]; simpl snd.
    { rewrite trace_at_client. eauto. }
    destruct (converse_reply h (at_call w) bedrock_client request) as [e | response];
      simpl snd.
    { rewrite trace_at_call. eauto. }
    destruct (extract_text response) as [e | text]; simpl snd.
    { rewrite trace_log, trace_at_call, <- app_assoc. eauto. }
    destruct (print_raises h text) as [e | ] eqn:Hp; simpl snd.
    - rewrite trace_log, trace_at_call, <- app_assoc. eauto.
    - rewrite (trace_printed h _ _ Hp), trace_log, trace_at_call, <- !app_assoc.
      eauto. }
  destruct Hext as [evs Hevs].
  rewrite (new_events_app w _ evs Hevs). exact Hevs.
Qed.

Lemma new_events_trans (w w1 w2 : World) :
  trace w1 = trace w ++ new_events w w1 ->
  trace w2 = trace w1 ++ new_events w1 w2 ->
  new_events w w2 = new_events w w1 ++ new_events w1 w2.
Proof.
  intros H1 H2. apply new_events_app.
  rewrite H2 at 1. rewrite H1 at 1. rewrite <- app_assoc. reflexivity.
Qed.

(** [main(); main()]: the second call happens when the first returned. *)
Lemma script_twice_cases (w : World) :
  script_twice h w =
  match script h w with
  | (inr _, w1) => script h w1
  | (inl e, w1) => (inl e, w1)
  end.
Proof. reflexivity. Qed.

(** Once the client is built the request goes out, once. *)
Lemma script_requests_sent (w : World) :
  client_fails h (at_client w) "bedrock-runtime" "us-east-1" = None ->
  requests_of (new_events w (snd (script h w))) = [request].
Proof.
  intros Hc. rewrite script_events, Hc.
  destruct (converse_reply h (at_call w) bedrock_client request) as [e | response];
    [reflexivity | ].
  destruct (extract_text response) as [e | text]; [reflexivity | ].
  destruct (print_raises h text); reflexivity.
Qed.

(** Without a client there is no request. *)
Lemma script_requests_none (w : World) (e : PyExc) :
  client_fails h (at_client w) "bedrock-runtime" "us-east-1" = Some e ->
  requests_of (new_events w (snd (script h w))) = [].
Proof. intros Hc. rewrite script_events, Hc. reflexivity. Qed.

(** Once the call returned, its reply is on record, printed or not. *)
Lemma script_replies (w : World) (response : PyVal) :
  client_fails h (at_client w) "bedrock-runtime" "us-east-1" = None ->
  converse_reply h (at_call w) bedrock_client request = inr response ->
  replies_of (new_events w (snd (script h w))) = [response].
Proof.
  intros Hc Hr. rewrite script_events, Hc, Hr.
  destruct (extract_text response) as [e | text]; [reflexivity | ].
  destruct (print_raises h text); reflexivity.
Qed.

(** The replies and the output of a run that found a text it can print. *)
Lemma script_success_effects (w : World) (response text : PyVal) :
  client_fails h (at_client w) "bedrock-runtime" "us-east-1" = None ->
  converse_reply h (at_call w) bedrock_client request = inr response ->
  extract_text response = inr text ->
  print_raises h text = None ->
  fst (script h w) = inr tt /\
  replies_of (new_events w (snd (script h w))) = [response] /\
  stdout (snd (script h w)) = stdout w +:+ py_str h text +:+ LF.
Proof.
  intros Hc Hr Hx Hp. rewrite script_events, Hc, Hr, Hx, Hp.
  rewrite (script_success h w response text Hc Hr Hx Hp). simpl fst. simpl snd.
  rewrite (stdout_printed h _ _ Hp). repeat split; reflexivity.
Qed.

(** A run whose text cannot be printed ends in the exception of [print],
    with nothing written. *)
Lemma script_print_failure (w : World) (response text : PyVal) (e : PyExc) :
  client_fails h (at_client w) "bedrock-runtime" "us-east-1" = None ->
  converse_reply h (at_call w) bedrock_client request = inr response ->
  extract_text response = inr text ->
  print_raises h text = Some e ->
  fst (script h w) = inl e /\
  writes_of (new_events w (snd (script h w))) = [] /\
  stdout (snd (script h w)) = stdout w.
Proof.
  intros Hc Hr Hx Hp. rewrite script_events, script_cases, Hc, Hr, Hx, Hp.
  repeat split; reflexivity.
Qed.

End Sequence.

(** ** The model on small inputs *)

Example getitem_missing_key :
  getitem (VDict {["a" := VInt 1]}) (SKey "b") = inl (KeyError (SKey "b")).
Proof. vm_compute. reflexivity. Qed.

Example getitem_empty_list : getitem (VList []) (SIdx 0) = inl IndexError.
Proof. reflexivity. Qed.

Example getitem_last_item :
  getitem (VList [VInt 1; VInt 2]) (SIdx (-1)) = inr (VInt 2).
Proof. reflexivity. Qed.

Example getitem_str_by_key : getitem (VStr "abc") (SKey "text") = inl TypeError.
Proof. reflexivity. Qed.

Example extract_text_of_str_content :
  extract_text
    (VDict {["output" := VDict {["message" := VDict {["content" := VStr "abc"]}]}]})
  = inl TypeError.
Proof. vm_compute. reflexivity. Qed.

Example preceded_wants_an_earlier_event :
  preceded is_call is_return false [ConverseReturn VNone; ConverseCall request] = false.
Proof. reflexivity. Qed.

Example offline_run :
  script offline_host (fresh ∅) =
  (inl (SdkError "NoRegionError"),
   mkWorld {["AWS_BEARER_TOKEN_BEDROCK" := "${api-key}"]} EmptyString
     [EnvAssign "AWS_BEARER_TOKEN_BEDROCK" "${api-key}";
      ClientCreate "bedrock-runtime" "us-east-1"]).
Proof. vm_compute. reflexivity. Qed.

Example bedrock_run_events :
  new_events (fresh ∅) (snd (script (mock_host bedrock_response) (fresh ∅))) =
  [EnvAssign "AWS_BEARER_TOKEN_BEDROCK" "${api-key}";
   ClientCreate "bedrock-runtime" "us-east-1";
   Construct "model_id" (VStr "us.anthropic.claude-3-5-haiku-20241022-v1:0");
   Construct "messages" messages_literal;
   ConverseCall request;
   ConverseReturn bedrock_response;
   StdoutWrite "Bedrock is a managed service.";
   StdoutWrite LF].
Proof. vm_compute. reflexivity. Qed.

Example print_int :
  stdout (snd (print (mock_host VNone) (VInt (-5)) (fresh ∅))) = "-5" +:+ LF.
Proof. vm_compute. reflexivity. Qed.

Example long_int_has_no_text :
  builtin_str (mock_host VNone) (VInt (10 ^ 4300)) = inl ValueError /\
  int_str_too_long (10 ^ 4300 - 1) = false /\
  int_str_too_long (- 10 ^ 4300) = true.
Proof. vm_compute. repeat split. Qed.

Example surrogate_is_refused :
  has_surrogate surrogate_text = true /\
  has_surrogate "Bedrock is a managed service." = false /\
  sys_stdout_write surrogate_text (fresh ∅) = (inl UnicodeEncodeError, fresh ∅).
Proof. vm_compute. repeat split. Qed.


(** A [str] can be printed exactly when it holds no surrogate. *)
Lemma print_raises_VStr (h : Host) (s : string) :
  print_raises h (VStr s) = None <-> has_surrogate s = false.
Proof.
  unfold print_raises. simpl.
  destruct (has_surrogate s); split; intros H; congruence.
Qed.

(** ** What a run prints *)




(** The cases of [path_missing] are cases without the path. *)
Lemma path_missing_none (response : PyVal) :
  path_missing response -> response_path response = None.
Proof.
  intros [r Hr | r o Hr Ho | r o m Hr Ho Hm | r o m Hr Ho Hm
         | r o m b rest Hr Ho Hm Hb]; simpl;
    rewrite ?Hr, ?Ho, ?Hm; reflexivity || assumption.
Qed.

(** C2. Whenever the reply of the service lacks the path
    [output.message.content[0].text], the run ends in the exception of the
    failed subscript (a [KeyError], an [IndexError] or a [TypeError]), the
    exit status is not 0, and nothing at all is written to standard output. *)
Theorem missing_path_is_unhandled_error (h : Host) (w : World) (response : PyVal) :
  client_fails h (at_client w) "bedrock-runtime" "us-east-1" = None ->
  converse_reply h (at_call w) bedrock_client request = inr response ->
  response_path response = None ->
  exists e,
    fst (script h w) = inl e /\
    extract_text response = inl e /\
    ((exists sub, e = KeyError sub) \/ e = IndexError \/ e = TypeError) /\
    exit_code (fst (script h w)) <> 0 /\
    stdout (snd (script h w)) = stdout w /\
    writes_of (new_events w (snd (script h w))) = [].
Proof.
  intros Hc Hr Hp.
  destruct (extract_text_no_path response Hp) as [e Hx].
  exists e. rewrite script_events, script_cases, Hc, Hr, Hx. simpl.
  repeat split; try reflexivity.
  - apply (extract_text_raises response e Hx).
  - discriminate.
Qed.

Lemma missing_path_is_unhandled_error_witness :
  response_path textless_response = None /\
  fst (script (mock_host textless_response) (fresh ∅)) = inl (KeyError (SKey "text")) /\
  exit_code (fst (script (mock_host textless_response) (fresh ∅))) <> 0 /\
  stdout (snd (script (mock_host textless_response) (fresh ∅))) = EmptyString.
Proof.
  assert (Hp : response_path textless_response = None) by (vm_compute; reflexivity).
  destruct (missing_path_is_unhandled_error (mock_host textless_response) (fresh ∅)
              textless_response eq_refl eq_refl Hp)
    as (e & Hfst & Hx & _ & Hexit & Hout & _).
  assert (He : e = KeyError (SKey "text")).
  { vm_compute in Hx. inversion Hx. reflexivity. }
  rewrite He in Hfst.
  split; [exact Hp | ]. split; [exact Hfst | ]. split; [exact Hexit | exact Hout].
Defined.

(** ** The request *)

(** C3. Every request a run sends carries the model identifier
    ["us.anthropic.claude-3-5-haiku-20241022-v1:0"] and a message list of
    exactly one message, whose only fields are the role ["user"] and a content
    list of exactly one block, whose only field is the greeting text; this
    holds for every host and every starting world. *)
Theorem request_is_fixed (h : Host) (w : World) (args : ConverseArgs) :
  args ∈ requests_of (new_events w (snd (script h w))) ->
  modelId args = "us.anthropic.claude-3-5-haiku-20241022-v1:0" /\
  exists m c : gmap string PyVal,
    messages args = VList [VDict m] /\
    m !! "role" = Some (VStr "user") /\
    m !! "content" = Some (VList [VDict c]) /\
    c !! "text" = Some (VStr "Hello! Can you tell me about Amazon Bedrock?") /\
    dom m = ({["role"; "content"]} : gset string) /\
    dom c = ({["text"]} : gset string).
Proof.
  intros Hin.
  assert (Hargs : args = request).
  { destruct (client_fails h (at_client w) "bedrock-runtime" "us-east-1")
      as [e | ] eqn:Hc.
    - rewrite (script_requests_none h w e Hc) in Hin.
      apply elem_of_nil in Hin. contradiction.
    - rewrite (script_requests_sent h w Hc) in Hin.
      apply list_elem_of_singleton in Hin. exact Hin. }
  subst args. split; [reflexivity | ].
  eexists _, _. split; [reflexivity | ].
  repeat split; vm_compute; reflexivity.
Qed.

Lemma request_is_fixed_witness :
  request ∈ requests_of (new_events (fresh ∅)
                           (snd (script (mock_host bedrock_response) (fresh ∅)))) /\
  modelId request = "us.anthropic.claude-3-5-haiku-20241022-v1:0".
Proof.
  assert (Hin : request ∈ requests_of (new_events (fresh ∅)
                           (snd (script (mock_host bedrock_response) (fresh ∅))))).
  { vm_compute. apply list_elem_of_singleton. reflexivity. }
  split; [exact Hin | ].
  exact (proj1 (request_is_fixed (mock_host bedrock_response) (fresh ∅) request Hin)).
Defined.

(** Once the client is built the two literals are built, once each. *)
Lemma script_constructions (h : Host) (w : World) :
  client_fails h (at_client w) "bedrock-runtime" "us-east-1" = None ->
  constructions_of (new_events w (snd (script h w))) =
    [("model_id", VStr model_id); ("messages", messages_literal)] /\
  preceded is_construct is_call false (new_events w (snd (script h w))) = true.
Proof.
  intros Hc. rewrite script_events, Hc.
  destruct (converse_reply h (at_call w) bedrock_client request) as [e | response];
    [split; reflexivity | ].
  destruct (extract_text response) as [e | text]; [split; reflexivity | ].
  destruct (print_raises h text); split; reflexivity.
Qed.

(** Without a client the run ends before the literals are reached. *)
Lemma script_constructions_none (h : Host) (w : World) (e : PyExc) :
  client_fails h (at_client w) "bedrock-runtime" "us-east-1" = Some e ->
  constructions_of (new_events w (snd (script h w))) = [] /\
  preceded is_construct is_call false (new_events w (snd (script h w))) = true.
Proof. intros Hc. rewrite script_events, Hc. split; reflexivity. Qed.

(** C5, as stated, fails: when [boto3.client] raises, the run ends before the
    model identifier and the message list are built, so the request tuple is
    constructed not once but never (and never sent). *)
Lemma request_never_built_counterexample :
  fst (script offline_host (fresh ∅)) = inl (SdkError "NoRegionError") /\
  constructions_of (new_events (fresh ∅) (snd (script offline_host (fresh ∅)))) = [] /\
  requests_of (new_events (fresh ∅) (snd (script offline_host (fresh ∅)))) = [].
Proof. vm_compute. repeat split. Qed.

(** C5, amended. In every run the request tuple is constructed at most once
    and sent at most once. When [boto3.client] raises it is neither built nor
    sent. When the client is built, and so on every run that ends normally,
    the model identifier and the message list are built exactly once each,
    before the call, and sent exactly once; the request that goes out carries
    exactly the two values that were built, unchanged. *)
Theorem request_sent_once (h : Host) (w : World) :
  ((constructions_of (new_events w (snd (script h w))) = [] /\
    requests_of (new_events w (snd (script h w))) = []) \/
   (constructions_of (new_events w (snd (script h w))) =
      [("model_id", VStr model_id); ("messages", messages_literal)] /\
    requests_of (new_events w (snd (script h w))) =
      [mkConverseArgs model_id messages_literal])) /\
  (length (requests_of (new_events w (snd (script h w)))) <= 1)%nat /\
  (forall e, client_fails h (at_client w) "bedrock-runtime" "us-east-1" = Some e ->
   constructions_of (new_events w (snd (script h w))) = [] /\
   requests_of (new_events w (snd (script h w))) = []) /\
  (client_fails h (at_client w) "bedrock-runtime" "us-east-1" = None ->
   constructions_of (new_events w (snd (script h w))) =
     [("model_id", VStr model_id); ("messages", messages_literal)] /\
   requests_of (new_events w (snd (script h w))) = [request]) /\
  (fst (script h w) = inr tt ->
   constructions_of (new_events w (snd (script h w))) =
     [("model_id", VStr model_id); ("messages", messages_literal)] /\
   requests_of (new_events w (snd (script h w))) = [request]) /\
  (forall args, args ∈ requests_of (new_events w (snd (script h w))) ->
   constructions_of (new_events w (snd (script h w))) =
     [("model_id", VStr (modelId args)); ("messages", messages args)]) /\
  preceded is_construct is_call false (new_events w (snd (script h w))) = true.
Proof.
  destruct (client_fails h (at_client w) "bedrock-runtime" "us-east-1") as [e | ] eqn:Hc.
  - destruct (script_constructions_none h w e Hc) as [Hbuilt Horder].
    rewrite Hbuilt, Horder, (script_requests_none h w e Hc).
    split; [left; split; reflexivity | ].
    split; [simpl; lia | ].
    split; [intros e' _; split; reflexivity | ].
    split; [discriminate | ].
    split; [rewrite script_cases, Hc; discriminate | ].
    split; [ | reflexivity].
    intros args Hin. apply elem_of_nil in Hin. contradiction.
  - destruct (script_constructions h w Hc) as [Hbuilt Horder].
    rewrite Hbuilt, Horder, (script_requests_sent h w Hc).
    split; [right; split; reflexivity | ].
    split; [simpl; lia | ].
    split; [discriminate | ].
    split; [intros _; split; reflexivity | ].
    split; [intros _; split; reflexivity | ].
    split; [ | reflexivity].
    intros args Hin. apply list_elem_of_singleton in Hin. subst args. reflexivity.
Qed.

Lemma request_sent_once_witness :
  fst (script (mock_host bedrock_response) (fresh ∅)) = inr tt /\
  constructions_of (new_events (fresh ∅)
                      (snd (script (mock_host bedrock_response) (fresh ∅)))) =
    [("model_id", VStr model_id); ("messages", messages_literal)] /\
  requests_of (new_events (fresh ∅)
                 (snd (script (mock_host bedrock_response) (fresh ∅)))) = [request].
Proof.
  assert (Hok : fst (script (mock_host bedrock_response) (fresh ∅)) = inr tt)
    by (vm_compute; reflexivity).
  split; [exact Hok | ].
  destruct (request_sent_once (mock_host bedrock_response) (fresh ∅))
    as (_ & _ & _ & _ & Hsuccess & _).
  exact (Hsuccess Hok).
Defined.

(** ** The order of the effects *)

(** C4. In every run the first thing that happens is the assignment of the
    literal token to the environment variable; every request comes after it,
    every return of the call after a request, and every write to standard
    output after a return of the call. The SDK is asked for the client and
    for the reply in a world whose environment holds the token. *)
Theorem setup_precedes_call_precedes_print (h : Host) (w : World) :
  head (new_events w (snd (script h w))) =
    Some (EnvAssign "AWS_BEARER_TOKEN_BEDROCK" "${api-key}") /\
  preceded is_token_assign is_call false (new_events w (snd (script h w))) = true /\
  preceded is_call is_return false (new_events w (snd (script h w))) = true /\
  preceded is_return is_write false (new_events w (snd (script h w))) = true /\
  environ (at_client w) !! "AWS_BEARER_TOKEN_BEDROCK" = Some "${api-key}" /\
  environ (at_call w) !! "AWS_BEARER_TOKEN_BEDROCK" = Some "${api-key}".
Proof.
  rewrite script_events, environ_at_client, environ_at_call.
  split; [reflexivity | ].
  assert (Henv : <[TOKEN_VAR := TOKEN_VALUE]> (environ w) !! "AWS_BEARER_TOKEN_BEDROCK"
                 = Some "${api-key}") by apply lookup_insert_eq.
  destruct (client_fails h (at_client w) _ _) as [e | ].
  { repeat split; reflexivity || exact Henv. }
  destruct (converse_reply h (at_call w) bedrock_client request) as [e | response].
  { repeat split; reflexivity || exact Henv. }
  destruct (extract_text response) as [e | text].
  { repeat split; reflexivity || exact Henv. }
  destruct (print_raises h text); repeat split; reflexivity || exact Henv.
Qed.

Lemma setup_precedes_call_precedes_print_witness :
  head (new_events (fresh ∅) (snd (script (mock_host bedrock_response) (fresh ∅)))) =
    Some (EnvAssign "AWS_BEARER_TOKEN_BEDROCK" "${api-key}") /\
  preceded is_return is_write false
    (new_events (fresh ∅) (snd (script (mock_host bedrock_response) (fresh ∅)))) = true.
Proof.
  destruct (setup_precedes_call_precedes_print (mock_host bedrock_response) (fresh ∅))
    as (Hhead & _ & _ & Hprint & _).
  split; [exact Hhead | exact Hprint].
Defined.

(** ** The environment *)

(** C8. After every run the variable [AWS_BEARER_TOKEN_BEDROCK] holds the
    literal ["${api-key}"], whatever the environment was and whatever the
    host does; the literal is not empty, it is assigned as it is, once, and
    the assignment cannot fail. *)
Theorem token_is_placeholder_literal (h : Host) (w : World) :
  environ (snd (script h w)) !! "AWS_BEARER_TOKEN_BEDROCK" = Some "${api-key}" /\
  env_assigns_of (new_events w (snd (script h w))) =
    [("AWS_BEARER_TOKEN_BEDROCK", "${api-key}")] /\
  TOKEN_VALUE = "${api-key}" /\
  TOKEN_VALUE <> EmptyString /\
  fst (os_environ_setitem TOKEN_VAR TOKEN_VALUE w) = inr tt.
Proof.
  rewrite script_environ, script_events.
  split; [apply lookup_insert_eq | ].
  split.
  { destruct (client_fails h (at_client w) _ _) as [e | ]; [reflexivity | ].
    destruct (converse_reply h (at_call w) bedrock_client request) as [e | response];
      [reflexivity | ].
    destruct (extract_text response) as [e | text]; [reflexivity | ].
    destruct (print_raises h text); reflexivity. }
  split; [reflexivity | ]. split; [discriminate | reflexivity].
Qed.

Lemma token_is_placeholder_literal_witness :
  environ (snd (script offline_host (fresh {["AWS_BEARER_TOKEN_BEDROCK" := "stale"]})))
    !! "AWS_BEARER_TOKEN_BEDROCK" = Some "${api-key}".
Proof.
  exact (proj1 (token_is_placeholder_literal offline_host
                  (fresh {["AWS_BEARER_TOKEN_BEDROCK" := "stale"]}))).
Defined.

(** C9. A run changes the environment in one place only: the environment
    after it is the one before with [AWS_BEARER_TOKEN_BEDROCK] set to the
    literal. Every other variable reads as before, the variable itself
    reads the literal whatever it held, and the run makes no other
    assignment to the environment. *)
Theorem environ_frame (h : Host) (w : World) :
  environ (snd (script h w)) =
    <["AWS_BEARER_TOKEN_BEDROCK" := "${api-key}"]> (environ w) /\
  (forall k, k <> "AWS_BEARER_TOKEN_BEDROCK" ->
             environ (snd (script h w)) !! k = environ w !! k) /\
  (forall old, environ w !! "AWS_BEARER_TOKEN_BEDROCK" = Some old ->
               environ (snd (script h w)) !! "AWS_BEARER_TOKEN_BEDROCK"
               = Some "${api-key}") /\
  map fst (env_assigns_of (new_events w (snd (script h w)))) =
    ["AWS_BEARER_TOKEN_BEDROCK"].
Proof.
  rewrite script_environ, script_events.
  split; [reflexivity | ].
  split; [intros k Hk; apply lookup_insert_ne; intros Heq; apply Hk; symmetry; exact Heq | ].
  split; [intros old _; apply lookup_insert_eq | ].
  destruct (client_fails h (at_client w) _ _) as [e | ]; [reflexivity | ].
  destruct (converse_reply h (at_call w) bedrock_client request) as [e | response];
    [reflexivity | ].
  destruct (extract_text response) as [e | text]; [reflexivity | ].
  destruct (print_raises h text); reflexivity.
Qed.

Lemma environ_frame_witness :
  "HOME" <> "AWS_BEARER_TOKEN_BEDROCK" /\
  environ (snd (script offline_host
                  (fresh (<["HOME" := "/root"]> {["AWS_BEARER_TOKEN_BEDROCK" := "stale"]}))))
    !! "HOME" = Some "/root" /\
  environ (snd (script offline_host
                  (fresh (<["HOME" := "/root"]> {["AWS_BEARER_TOKEN_BEDROCK" := "stale"]}))))
    !! "AWS_BEARER_TOKEN_BEDROCK" = Some "${api-key}".
Proof.
  assert (Hne : "HOME" <> "AWS_BEARER_TOKEN_BEDROCK") by discriminate.
  destruct (environ_frame offline_host
              (fresh (<["HOME" := "/root"]> {["AWS_BEARER_TOKEN_BEDROCK" := "stale"]})))
    as (_ & Hother & Hsame & _).
  split; [exact Hne | ].
  split.
  - rewrite (Hother "HOME" Hne). vm_compute. reflexivity.
  - apply (Hsame "stale"). vm_compute. reflexivity.
Defined.

(** ** Lines of output *)

(** C6, as stated, fails: a reply whose text field has a line feed in it
    makes a successful run print two lines. *)
Lemma stdout_one_line_counterexample :
  response_path two_line_response =
    Some (VStr ("Amazon Bedrock is a managed service." +:+ LF +:+
                "It hosts foundation models.")) /\
  fst (script (mock_host two_line_response) (fresh ∅)) = inr tt /\
  stdout (snd (script (mock_host two_line_response) (fresh ∅))) =
    "Amazon Bedrock is a managed service." +:+ LF +:+
    "It hosts foundation models." +:+ LF /\
  count_lf (stdout (snd (script (mock_host two_line_response) (fresh ∅)))) = 2%nat /\
  count_lf (stdout (snd (script (mock_host two_line_response) (fresh ∅)))) <> 1%nat.
Proof.
  split; [vm_compute; reflexivity | ].
  split; [vm_compute; reflexivity | ].
  split; [vm_compute; reflexivity | ].
  split; [vm_compute; reflexivity | vm_compute; discriminate].
Qed.

(** C6, amended. On every run that ends normally, what the run adds to
    standard output is the text field of the reply followed by one line feed:
    as many lines as the text has line feeds, plus one. It is a single line
    exactly when the text has no line feed in it. *)
Theorem stdout_is_text_then_newline (h : Host) (w : World) :
  fst (script h w) = inr tt ->
  exists response text,
    converse_reply h (at_call w) bedrock_client request = inr response /\
    response_path response = Some text /\
    stdout (snd (script h w)) = stdout w +:+ py_str h text +:+ LF /\
    count_lf (py_str h text +:+ LF) = S (count_lf (py_str h text)) /\
    (count_lf (py_str h text +:+ LF) = 1%nat <-> count_lf (py_str h text) = 0%nat).
Proof.
  intros Hok.
  destruct (script_success_inv h w Hok) as (response & text & Hc & Hr & Hx & Hprint).
  exists response, text.
  destruct (script_success_effects h w response text Hc Hr Hx Hprint)
    as (_ & _ & Hout).
  assert (Hn : count_lf (py_str h text +:+ LF) = S (count_lf (py_str h text))).
  { rewrite count_lf_app. simpl. lia. }
  split; [exact Hr | ].
  split; [apply extract_text_path; exact Hx | ].
  split; [exact Hout | ].
  split; [exact Hn | ].
  rewrite Hn. split; lia.
Qed.

Lemma stdout_is_text_then_newline_witness :
  fst (script (mock_host bedrock_response) (fresh ∅)) = inr tt /\
  exists response text,
    response_path response = Some text /\
    stdout (snd (script (mock_host bedrock_response) (fresh ∅))) =
      stdout (fresh ∅) +:+ py_str (mock_host bedrock_response) text +:+ LF.
Proof.
  assert (Hok : fst (script (mock_host bedrock_response) (fresh ∅)) = inr tt)
    by (vm_compute; reflexivity).
  split; [exact Hok | ].
  destruct (stdout_is_text_then_newline (mock_host bedrock_response) (fresh ∅) Hok)
    as (response & text & _ & Hp & Hout & _).
  exists response, text. split; [exact Hp | exact Hout].
Defined.

(** ** Two invocations *)

(** C7. When the body is run twice in a row and the second run gets its
    client, two requests go out, both the fixed one. The second run asks the
    service again, in the world the first run left behind: when that second
    reply has the path, the replies of the two runs are the first reply and
    the second, and the second line printed is the text of the second reply,
    not of the first. (Where [print] cannot put the second text out, the
    second run ends in its exception and only the first line stands.) *)
Theorem second_invocation_sends_again (h : Host) (w w1 : World) :
  script h w = (inr tt, w1) ->
  client_fails h (at_client w1) "bedrock-runtime" "us-east-1" = None ->
  script_twice h w = script h w1 /\
  requests_of (new_events w (snd (script_twice h w))) = [request; request] /\
  (forall response2 text2,
     converse_reply h (at_call w1) bedrock_client request = inr response2 ->
     response_path response2 = Some text2 ->
     exists response1 text1,
       converse_reply h (at_call w) bedrock_client request = inr response1 /\
       response_path response1 = Some text1 /\
       replies_of (new_events w (snd (script_twice h w))) = [response1; response2] /\
       (print_raises h text2 = None ->
        fst (script_twice h w) = inr tt /\
        stdout (snd (script_twice h w)) =
          stdout w +:+ py_str h text1 +:+ LF +:+ py_str h text2 +:+ LF) /\
       (forall e, print_raises h text2 = Some e ->
        fst (script_twice h w) = inl e /\
        stdout (snd (script_twice h w)) = stdout w +:+ py_str h text1 +:+ LF)).
Proof.
  intros Hfirst Hc2.
  assert (Htwice : script_twice h w = script h w1).
  { rewrite script_twice_cases, Hfirst. reflexivity. }
  assert (Hw1 : snd (script h w) = w1) by (rewrite Hfirst; reflexivity).
  assert (Hok : fst (script h w) = inr tt) by (rewrite Hfirst; reflexivity).
  destruct (script_success_inv h w Hok)
    as (response1 & text1 & Hc1 & Hr1 & Hx1 & Hprint1).
  destruct (script_success_effects h w response1 text1 Hc1 Hr1 Hx1 Hprint1)
    as (_ & Hrep1 & Hout1).
  pose proof (script_requests_sent h w Hc1) as Hreq1.
  pose proof (script_trace h w) as Ht1.
  pose proof (script_trace h w1) as Ht2.
  rewrite Hw1 in Hrep1, Hout1, Hreq1, Ht1.
  pose proof (new_events_trans w w1 (snd (script h w1)) Ht1 Ht2) as Hnew.
  rewrite Htwice, Hnew.
  split; [reflexivity | ].
  split.
  { unfold requests_of. rewrite omap_app. fold (requests_of (new_events w w1)).
    fold (requests_of (new_events w1 (snd (script h w1)))).
    rewrite Hreq1, (script_requests_sent h w1 Hc2). reflexivity. }
  intros response2 text2 Hr2 Hp2.
  assert (Hx2 : extract_text response2 = inr text2) by (apply extract_text_path; exact Hp2).
  exists response1, text1.
  split; [exact Hr1 | ].
  split; [apply extract_text_path; exact Hx1 | ].
  split.
  { unfold replies_of. rewrite omap_app. fold (replies_of (new_events w w1)).
    fold (replies_of (new_events w1 (snd (script h w1)))).
    rewrite Hrep1, (script_replies h w1 response2 Hc2 Hr2). reflexivity. }
  split.
  - intros Hprint2.
    destruct (script_success_effects h w1 response2 text2 Hc2 Hr2 Hx2 Hprint2)
      as (Hok2 & _ & Hout2).
    split; [exact Hok2 | ].
    rewrite Hout2, Hout1, !str_app_assoc. reflexivity.
  - intros e Hprint2.
    destruct (script_print_failure h w1 response2 text2 e Hc2 Hr2 Hx2 Hprint2)
      as (Hfail2 & _ & Hout2).
    split; [exact Hfail2 | ].
    rewrite Hout2, Hout1. reflexivity.
Qed.

Lemma second_invocation_sends_again_witness :
  requests_of
    (new_events (fresh ∅)
       (snd (script_twice
               (scripted_host [text_response (VStr "one"); text_response (VStr "two")])
               (fresh ∅)))) = [request; request] /\
  stdout
    (snd (script_twice
            (scripted_host [text_response (VStr "one"); text_response (VStr "two")])
            (fresh ∅))) = "one" +:+ LF +:+ "two" +:+ LF.
Proof.
  pose (h := scripted_host [text_response (VStr "one"); text_response (VStr "two")]).
  assert (Hfirst : script h (fresh ∅) = (inr tt, snd (script h (fresh ∅))))
    by (vm_compute; reflexivity).
  assert (Hc2 : client_fails h (at_client (snd (script h (fresh ∅))))
                  "bedrock-runtime" "us-east-1" = None) by reflexivity.
  destruct (second_invocation_sends_again h (fresh ∅) (snd (script h (fresh ∅)))
              Hfirst Hc2) as (_ & Hreq & Hsecond).
  split; [exact Hreq | ].
  assert (Hr2 : converse_reply h (at_call (snd (script h (fresh ∅))))
                  bedrock_client request = inr (text_response (VStr "two")))
    by (vm_compute; reflexivity).
  assert (Hp2 : response_path (text_response (VStr "two")) = Some (VStr "two"))
    by (vm_compute; reflexivity).
  destruct (Hsecond (text_response (VStr "two")) (VStr "two") Hr2 Hp2)
    as (response1 & text1 & Hr1 & Hp1 & _ & Hprinted & _).
  assert (Hprint2 : print_raises h (VStr "two") = None) by (vm_compute; reflexivity).
  destruct (Hprinted Hprint2) as (_ & Hout).
  assert (Htext1 : text1 = VStr "one").
  { vm_compute in Hr1. inversion Hr1 as [Hresp]. subst response1.
    vm_compute in Hp1. inversion Hp1. reflexivity. }
  rewrite Htext1 in Hout. exact Hout.
Defined.

(** ** What the extraction looks at *)

(** C10. Whenever the response is an object whose [output] is an object
    whose [message] is an object whose [content] is a list with a first
    element that is an object with a [text] field, the subscript chain
    returns that field. The other fields of the four objects and the content
    blocks after the first are universally quantified: the result is the one
    for the smallest response with that text. *)
Theorem extraction_ignores_extras
    (r o m b : gmap string PyVal) (rest : list PyVal) (text : PyVal) :
  r !! "output" = Some (VDict o) ->
  o !! "message" = Some (VDict m) ->
  m !! "content" = Some (VList (VDict b :: rest)) ->
  b !! "text" = Some text ->
  extract_text (VDict r) = inr text /\
  extract_text (VDict r) = extract_text (text_response text).
Proof.
  intros Hr Ho Hm Hb.
  assert (Hx : extract_text (VDict r) = inr text).
  { apply extract_text_path. simpl. rewrite Hr, Ho, Hm. exact Hb. }
  split; [exact Hx | ].
  rewrite Hx. symmetry. apply extract_text_path.
  unfold text_response, response_path.
  rewrite !lookup_singleton_eq. reflexivity.
Qed.

Lemma extraction_ignores_extras_witness :
  extract_text (VDict full_response) = inr (VStr "Bedrock is a managed service.").
Proof.
  refine (proj1 (extraction_ignores_extras full_response
                   {["message" := VDict full_message]} full_message
                   {["text" := VStr "Bedrock is a managed service."]}
                   [VDict {["text" := VStr "Anything else?"]}]
                   (VStr "Bedrock is a managed service.") _ _ _ _));
    vm_compute; reflexivity.
Defined.

(** ** Further properties of a run *)

Lemma str_app_nil_r (s : string) : s +:+ EmptyString = s.
Proof.
  induction s as [ | c s IH]; [reflexivity | ].
  rewrite str_app_cons, IH. reflexivity.
Qed.

(** X1. Every run asks for exactly one client, for the service
    [bedrock-runtime] in the region [us-east-1], and does so right after the
    assignment to the environment, whatever happens afterwards. *)
Theorem client_built_once_for_bedrock (h : Host) (w : World) :
  clients_of (new_events w (snd (script h w))) = [("bedrock-runtime", "us-east-1")] /\
  new_events w (snd (script h w)) !! 1%nat =
    Some (ClientCreate "bedrock-runtime" "us-east-1").
Proof.
  rewrite script_events.
  destruct (client_fails h (at_client w) _ _) as [e | ]; [split; reflexivity | ].
  destruct (converse_reply h (at_call w) bedrock_client request) as [e | response];
    [split; reflexivity | ].
  destruct (extract_text response) as [e | text]; [split; reflexivity | ].
  destruct (print_raises h text); split; reflexivity.
Qed.

(** X2. When [boto3.client] raises, the run ends in that very exception with
    exit status 1: no request is sent and nothing is printed, while the
    token stays in the environment. *)
Theorem client_failure_propagates (h : Host) (w : World) (e : PyExc) :
  client_fails h (at_client w) "bedrock-runtime" "us-east-1" = Some e ->
  fst (script h w) = inl e /\
  exit_code (fst (script h w)) = 1 /\
  requests_of (new_events w (snd (script h w))) = [] /\
  writes_of (new_events w (snd (script h w))) = [] /\
  stdout (snd (script h w)) = stdout w /\
  environ (snd (script h w)) !! "AWS_BEARER_TOKEN_BEDROCK" = Some "${api-key}".
Proof.
  intros Hc. rewrite script_environ, script_events, script_cases, Hc. simpl.
  repeat split. apply lookup_insert_eq.
Qed.

Lemma client_failure_propagates_witness :
  client_fails offline_host (at_client (fresh ∅)) "bedrock-runtime" "us-east-1"
    = Some (SdkError "NoRegionError") /\
  fst (script offline_host (fresh ∅)) = inl (SdkError "NoRegionError") /\
  requests_of (new_events (fresh ∅) (snd (script offline_host (fresh ∅)))) = [].
Proof.
  destruct (client_failure_propagates offline_host (fresh ∅) (SdkError "NoRegionError")
              eq_refl) as (Hfst & _ & Hreq & _).
  split; [reflexivity | ]. split; [exact Hfst | exact Hreq].
Defined.

(** X3. When [client.converse] raises, the run ends in that very exception
    with exit status 1. The request went out once and is not tried again, no
    reply is recorded and nothing is printed. *)
Theorem converse_failure_propagates (h : Host) (w : World) (e : PyExc) :
  client_fails h (at_client w) "bedrock-runtime" "us-east-1" = None ->
  converse_reply h (at_call w) bedrock_client request = inl e ->
  fst (script h w) = inl e /\
  exit_code (fst (script h w)) = 1 /\
  requests_of (new_events w (snd (script h w))) = [request] /\
  replies_of (new_events w (snd (script h w))) = [] /\
  writes_of (new_events w (snd (script h w))) = [] /\
  stdout (snd (script h w)) = stdout w.
Proof.
  intros Hc Hr. rewrite script_events, script_cases, Hc, Hr. simpl.
  repeat split.
Qed.

Lemma converse_failure_propagates_witness :
  converse_reply (scripted_host []) (at_call (fresh ∅)) bedrock_client request
    = inl (SdkError "EndpointConnectionError") /\
  fst (script (scripted_host []) (fresh ∅)) = inl (SdkError "EndpointConnectionError") /\
  requests_of (new_events (fresh ∅) (snd (script (scripted_host []) (fresh ∅))))
    = [request].
Proof.
  assert (Hr : converse_reply (scripted_host []) (at_call (fresh ∅)) bedrock_client request
               = inl (SdkError "EndpointConnectionError")) by (vm_compute; reflexivity).
  destruct (converse_failure_propagates (scripted_host []) (fresh ∅)
              (SdkError "EndpointConnectionError") eq_refl Hr) as (Hfst & _ & Hreq & _).
  split; [exact Hr | ]. split; [exact Hfst | exact Hreq].
Defined.

(** X4. The subscripts are evaluated from left to right and the first one
    that fails decides the exception: a missing [output], [message],
    [content] or [text] key raises [KeyError] of that key, and an empty
    content list raises [IndexError]. *)
Theorem missing_part_exception :
  (forall r : gmap string PyVal,
     r !! "output" = None ->
     extract_text (VDict r) = inl (KeyError (SKey "output"))) /\
  (forall r o : gmap string PyVal,
     r !! "output" = Some (VDict o) -> o !! "message" = None ->
     extract_text (VDict r) = inl (KeyError (SKey "message"))) /\
  (forall r o m : gmap string PyVal,
     r !! "output" = Some (VDict o) -> o !! "message" = Some (VDict m) ->
     m !! "content" = None ->
     extract_text (VDict r) = inl (KeyError (SKey "content"))) /\
  (forall r o m : gmap string PyVal,
     r !! "output" = Some (VDict o) -> o !! "message" = Some (VDict m) ->
     m !! "content" = Some (VList []) ->
     extract_text (VDict r) = inl IndexError) /\
  (forall (r o m b : gmap string PyVal) (rest : list PyVal),
     r !! "output" = Some (VDict o) -> o !! "message" = Some (VDict m) ->
     m !! "content" = Some (VList (VDict b :: rest)) -> b !! "text" = None ->
     extract_text (VDict r) = inl (KeyError (SKey "text"))).
Proof.
  repeat split.
  - intros r Hr. unfold extract_text. simpl. rewrite Hr. reflexivity.
  - intros r o Hr Ho. unfold extract_text. simpl. rewrite Hr. simpl.
    rewrite Ho. reflexivity.
  - intros r o m Hr Ho Hm. unfold extract_text. simpl. rewrite Hr. simpl.
    rewrite Ho. simpl. rewrite Hm. reflexivity.
  - intros r o m Hr Ho Hm. unfold extract_text. simpl. rewrite Hr. simpl.
    rewrite Ho. simpl. rewrite Hm. reflexivity.
  - intros r o m b rest Hr Ho Hm Hb. unfold extract_text. simpl. rewrite Hr. simpl.
    rewrite Ho. simpl. rewrite Hm. simpl. rewrite Hb. reflexivity.
Qed.

Lemma missing_part_exception_witness :
  extract_text (VDict {["status" := VInt 200]}) = inl (KeyError (SKey "output")) /\
  extract_text
    (VDict {["output" := VDict {["message" := VDict {["content" := VList []]}]}]})
  = inl IndexError.
Proof.
  destruct missing_part_exception as (Hout & _ & _ & Hempty & _).
  split.
  - apply Hout. vm_compute. reflexivity.
  - apply (Hempty _ {["message" := VDict {["content" := VList []]}]}
             {["content" := VList []]}); vm_compute; reflexivity.
Defined.

(** X5. A content that is not a list never yields a text: a dictionary
    raises [KeyError] of the index 0, an empty [str] raises [IndexError],
    and a [str] with characters, a number, a boolean or [None] raises
    [TypeError]. *)
Theorem content_must_be_a_list (r o m : gmap string PyVal) (c : PyVal) :
  r !! "output" = Some (VDict o) ->
  o !! "message" = Some (VDict m) ->
  m !! "content" = Some c ->
  (forall items, c <> VList items) ->
  extract_text (VDict r) =
    inl match c with
        | VDict _ => KeyError (SIdx 0)
        | VStr EmptyString => IndexError
        | _ => TypeError
        end.
Proof.
  intros Hr Ho Hm Hc. unfold extract_text. simpl. rewrite Hr. simpl.
  rewrite Ho. simpl. rewrite Hm.
  destruct c as [ | b | n | s | items | fields]; try reflexivity.
  - destruct s as [ | ch s]; reflexivity.
  - exfalso. apply (Hc items). reflexivity.
Qed.

Lemma content_must_be_a_list_witness : extract_text flat_response = inl TypeError.
Proof.
  refine (content_must_be_a_list
            {["output" := VDict {["message" := VDict {["content" := VStr "abc"]}]}]}
            {["message" := VDict {["content" := VStr "abc"]}]}
            {["content" := VStr "abc"]} (VStr "abc") _ _ _ _);
    try (vm_compute; reflexivity).
  intros items. discriminate.
Defined.

(** X6. Standard output only grows, by the writes of the run in their
    order. A run writes if and only if it ends normally: a run that ends in an
    exception, whichever it is, leaves standard output as it was. *)
Theorem output_iff_success (h : Host) (w : World) :
  stdout (snd (script h w)) =
    stdout w +:+ joined (writes_of (new_events w (snd (script h w)))) /\
  (writes_of (new_events w (snd (script h w))) <> [] <-> fst (script h w) = inr tt) /\
  (forall e, fst (script h w) = inl e -> stdout (snd (script h w)) = stdout w).
Proof.
  rewrite script_events, script_cases.
  destruct (client_fails h (at_client w) _ _) as [e | ].
  { simpl. rewrite str_app_nil_r. repeat split; try discriminate; congruence. }
  destruct (converse_reply h (at_call w) bedrock_client request) as [e | response].
  { simpl. rewrite str_app_nil_r. repeat split; try discriminate; congruence. }
  destruct (extract_text response) as [e | text].
  { simpl. rewrite str_app_nil_r. repeat split; try discriminate; congruence. }
  destruct (print_raises h text) as [e | ] eqn:Hprint.
  { simpl. rewrite str_app_nil_r. repeat split; try discriminate; congruence. }
  simpl fst. simpl snd. rewrite (stdout_printed h _ _ Hprint).
  split; [reflexivity | ].
  split; [split; [reflexivity | discriminate] | discriminate].
Qed.

Lemma output_iff_success_witness :
  fst (script (mock_host textless_response) (fresh ∅)) = inl (KeyError (SKey "text")) /\
  stdout (snd (script (mock_host textless_response) (fresh ∅))) = stdout (fresh ∅).
Proof.
  assert (Hfail : fst (script (mock_host textless_response) (fresh ∅))
                  = inl (KeyError (SKey "text"))) by (vm_compute; reflexivity).
  split; [exact Hfail | ].
  exact (proj2 (proj2 (output_iff_success (mock_host textless_response) (fresh ∅)))
           _ Hfail).
Defined.

(** X7. A run looks at its host in two places only: whether the client can
    be built, in the world right after the assignment, and what the one
    request is answered, in the world right after it was sent. Two hosts that
    agree there, and on the text of containers, give the same run. *)
Theorem run_depends_on_two_answers (h1 h2 : Host) (w : World) :
  client_fails h1 (at_client w) "bedrock-runtime" "us-east-1" =
    client_fails h2 (at_client w) "bedrock-runtime" "us-east-1" ->
  converse_reply h1 (at_call w) bedrock_client request =
    converse_reply h2 (at_call w) bedrock_client request ->
  (forall v, container_repr h1 v = container_repr h2 v) ->
  script h1 w = script h2 w.
Proof.
  intros Hc Hr Hrepr. rewrite !script_cases, Hc, Hr.
  destruct (client_fails h2 (at_client w) _ _) as [e | ]; [reflexivity | ].
  destruct (converse_reply h2 (at_call w) bedrock_client request) as [e | response];
    [reflexivity | ].
  destruct (extract_text response) as [e | text]; [reflexivity | ].
  assert (Hstr : builtin_str h1 text = builtin_str h2 text).
  { destruct text; simpl; try reflexivity; apply Hrepr. }
  unfold print_raises, printed, print. rewrite Hstr. reflexivity.
Qed.

Lemma run_depends_on_two_answers_witness :
  script (mock_host bedrock_response) (fresh ∅) =
  script (scripted_host [bedrock_response]) (fresh ∅).
Proof.
  apply run_depends_on_two_answers.
  - reflexivity.
  - vm_compute. reflexivity.
  - intros v. reflexivity.
Defined.

(** X8. A run that starts with the token already set to the literal leaves
    the environment exactly as it found it. *)
Theorem rerun_keeps_environment (h : Host) (w : World) :
  environ w !! "AWS_BEARER_TOKEN_BEDROCK" = Some "${api-key}" ->
  environ (snd (script h w)) = environ w.
Proof.
  intros Hset. rewrite script_environ. apply insert_id. exact Hset.
Qed.

Lemma rerun_keeps_environment_witness :
  environ (snd (script offline_host
                  (fresh (<["HOME" := "/root"]>
                            {["AWS_BEARER_TOKEN_BEDROCK" := "${api-key}"]})))) =
  <["HOME" := "/root"]> {["AWS_BEARER_TOKEN_BEDROCK" := "${api-key}"]}.
Proof.
  assert (Hset : environ (fresh (<["HOME" := "/root"]>
                                   {["AWS_BEARER_TOKEN_BEDROCK" := "${api-key}"]}))
                 !! "AWS_BEARER_TOKEN_BEDROCK" = Some "${api-key}")
    by (vm_compute; reflexivity).
  exact (rerun_keeps_environment offline_host
           (fresh (<["HOME" := "/root"]> {["AWS_BEARER_TOKEN_BEDROCK" := "${api-key}"]}))
           Hset).
Defined.


